(** * StaticType.h: compile-time instances of common TType values

    A shallow embedding of [sh::StaticType] (src/compiler/translator/StaticType.h):
    the constexpr name mangler [BuildStaticMangledName], the variable templates
    [kMangledNameInstance] and [kInstance], the static lookups [Get], [GetBasic],
    [GetQualified] and the dynamic lookups [GetForVecMatHelper], [GetForVecMat]
    and [GetForVec].

    Template arguments are ordinary arguments; instantiating a template either
    succeeds or is rejected by the C++ compiler, which is the [result] type. *)

From Stdlib Require Import NArith Ascii String Lia.
From stdpp Require Import base decidable option list strings.

#[local] Open Scope N_scope.

(** ** Types declared outside StaticType.h *)

(** Modelled from the spec: the enum [TBasicType] is declared in BaseTypes.h,
    which is not part of the sources at hand. The enumerants are the ones
    StaticType.h names; [EbtOther] stands for every further enumerant. *)
Inductive TBasicType : Set :=
  | EbtVoid
  | EbtFloat
  | EbtInt
  | EbtUInt
  | EbtBool
  | EbtOther (tag : N).

(** Modelled from the spec: the enum [TPrecision] of BaseTypes.h; StaticType.h
    names [EbpUndefined] only. *)
Inductive TPrecision : Set :=
  | EbpUndefined
  | EbpOther (tag : N).

(** Modelled from the spec: the enum [TQualifier] of BaseTypes.h; StaticType.h
    names [EvqGlobal] and [EvqOut]. *)
Inductive TQualifier : Set :=
  | EvqGlobal
  | EvqOut
  | EvqOther (tag : N).

#[global] Instance TBasicType_eq_dec : EqDecision TBasicType.
Proof. solve_decision. Defined.
#[global] Instance TPrecision_eq_dec : EqDecision TPrecision.
Proof. solve_decision. Defined.
#[global] Instance TQualifier_eq_dec : EqDecision TQualifier.
Proof. solve_decision. Defined.

(** [unsigned char]: a value in 0..255. *)
Definition uchar := N.

(** [char]: storing an [int] into a [char] keeps its low eight bits. *)
Definition char_of_int (n : N) : ascii := ascii_of_N (n mod 256).

Definition NUL : ascii := "000"%char.

(** Modelled from the spec: the class [TType] and its constexpr constructor are
    declared in Types.h, which is not part of the sources at hand. The
    descriptor is the record of the six constructor arguments; [mangledName]
    is the array the [const char *] argument points to. *)
Record TType : Set := {
  basicType : TBasicType;
  precision : TPrecision;
  qualifier : TQualifier;
  primarySize : uchar;
  secondarySize : uchar;
  mangledName : list ascii
}.

(** ** Outcome of compiling an instantiation *)

Inductive diagnostic : Set :=
  | StaticAssertFailed (msg : string)
  | ArrayIndexOutOfBounds.

Inductive result (A : Type) : Type :=
  | Ok (a : A)
  | IllFormed (d : diagnostic).
Arguments Ok {A} a.
Arguments IllFormed {A} d.

#[global] Instance result_ret : MRet result := @Ok.
#[global] Instance result_bind : MBind result := fun A B f m =>
  match m with
  | Ok a => f a
  | IllFormed d => IllFormed d
  end.

Definition static_assert (cond : bool) (msg : string) : result unit :=
  if cond then Ok tt else IllFormed (StaticAssertFailed msg).

(** ** Mangled names *)

Module Helpers.

Definition kStaticMangledNameMaxLength : nat := 10.

(** [struct StaticMangledName { char name[kStaticMangledNameMaxLength + 1] = {}; }] *)
Record StaticMangledName : Set := { name : list ascii }.

Definition StaticMangledName_zero : StaticMangledName :=
  {| name := replicate (kStaticMangledNameMaxLength + 1) NUL |}.

(** The locals [name] and [at] of [BuildStaticMangledName] during its constant
    evaluation. An index outside the array ends the evaluation: the
    initialiser is then not a constant expression and the instantiation is
    rejected. *)
Record locals : Set := { l_name : StaticMangledName; l_at : nat }.

Definition constexpr (A : Type) : Type := locals -> result (A * locals).

#[global] Instance constexpr_ret : MRet constexpr := fun A a s => Ok (a, s).
#[global] Instance constexpr_bind : MBind constexpr := fun A B f m s =>
  match m s with
  | Ok (a, s') => f a s'
  | IllFormed d => IllFormed d
  end.

(** [name.name[at] = c;] *)
Definition store (c : ascii) : constexpr unit := fun s =>
  if decide (l_at s < length (name (l_name s)))%nat
  then Ok (tt, {| l_name := {| name := <[l_at s := c]> (name (l_name s)) |};
                  l_at := l_at s |})
  else IllFormed ArrayIndexOutOfBounds.

(** [name.name[at++] = c;] *)
Definition store_inc (c : ascii) : constexpr unit := fun s =>
  if decide (l_at s < length (name (l_name s)))%nat
  then Ok (tt, {| l_name := {| name := <[l_at s := c]> (name (l_name s)) |};
                  l_at := S (l_at s) |})
  else IllFormed ArrayIndexOutOfBounds.

(** [return name;] *)
Definition return_name : constexpr StaticMangledName := fun s => Ok (l_name s, s).

(** Constant evaluation of a function body from its initial locals. *)
Definition constant_evaluate {A : Type} (body : constexpr A) (init : locals) : result A :=
  match body init with
  | Ok (a, _) => Ok a
  | IllFormed d => IllFormed d
  end.

Section Mangling.

(** [GetBasicMangledName] of BaseTypes.h is not part of the sources at hand;
    it is a parameter. Its value is the string literal it points to. *)
Variable GetBasicMangledName : TBasicType -> string.

(** [for (size_t i = 0; basicMangledName[i] != '\0'; ++i) name.name[at++] = basicMangledName[i];]
    The argument is the literal from index [i] on; the empty string is the
    terminator of the literal. *)
Fixpoint copy_basicMangledName (basicMangledName : string) : constexpr unit :=
  match basicMangledName with
  | EmptyString => mret tt
  | String c rest =>
      if decide (c = NUL) then mret tt
      else store_inc c ;; copy_basicMangledName rest
  end.

Definition BuildStaticMangledName (basicType : TBasicType) (precision : TPrecision)
    (qualifier : TQualifier) (primarySize secondarySize : uchar)
    : result StaticMangledName :=
  let isMatrix := (1 <? primarySize) && (1 <? secondarySize) in
  let isVector := (1 <? primarySize) && (secondarySize =? 1) in
  let body : constexpr StaticMangledName :=
    (if isMatrix then store_inc "m"
     else if isVector then store_inc "v"
     else mret tt) ;;
    copy_basicMangledName (GetBasicMangledName basicType) ;;
    store_inc (char_of_int (48 + primarySize)) ;;
    (if isMatrix then
       store_inc "x" ;;
       store_inc (char_of_int (48 + secondarySize))
     else mret tt) ;;
    store_inc ";" ;;
    store NUL ;;
    return_name in
  constant_evaluate body {| l_name := StaticMangledName_zero; l_at := 0 |}.

(** [kMangledNameInstance<basicType, precision, qualifier, primarySize, secondarySize>] *)
Definition kMangledNameInstance (basicType : TBasicType) (precision : TPrecision)
    (qualifier : TQualifier) (primarySize secondarySize : uchar)
    : result StaticMangledName :=
  BuildStaticMangledName basicType precision qualifier primarySize secondarySize.

(** [kInstance<basicType, precision, qualifier, primarySize, secondarySize>]:
    the value stored in the slot. Its initialiser is rejected when the
    mangled name is. *)
Definition kInstance (basicType : TBasicType) (precision : TPrecision)
    (qualifier : TQualifier) (primarySize secondarySize : uchar) : result TType :=
  mangled ← kMangledNameInstance basicType precision qualifier primarySize secondarySize;
  mret {| basicType := basicType; precision := precision; qualifier := qualifier;
          primarySize := primarySize; secondarySize := secondarySize;
          mangledName := name mangled |}.

End Mangling.

End Helpers.

(** ** Pointers to descriptors *)

(** [const TType *] inside one translation unit: every specialisation of the
    variable template [kInstance] is an object of its own, so the address
    [&Helpers::kInstance<...>] is named by the template arguments of the
    specialisation. [UnitPtr] below adds the translation unit. *)
Inductive TTypePtr : Set :=
  | addr_kInstance (basicType : TBasicType) (precision : TPrecision)
      (qualifier : TQualifier) (primarySize secondarySize : uchar).

#[global] Instance TTypePtr_eq_dec : EqDecision TTypePtr.
Proof. solve_decision. Defined.

(** Reading through the pointer. *)
Definition deref (GetBasicMangledName : TBasicType -> string) (t : TTypePtr)
    : result TType :=
  match t with
  | addr_kInstance b p q ps ss => Helpers.kInstance GetBasicMangledName b p q ps ss
  end.

(** ** Fully-qualified type lookup

    [Get] is the part of the lookup that does not depend on the table of
    short codes: the two checks on the sizes and the slot that is named.
    Whether the initialiser of the slot is accepted is [Helpers.kInstance]
    above; [PerUnit.Get] below adds it, and the translation unit. *)

Definition Get (basicType : TBasicType) (precision : TPrecision) (qualifier : TQualifier)
    (primarySize secondarySize : uchar) : result TTypePtr :=
  static_assert ((1 <=? primarySize) && (primarySize <=? 4)) "primarySize out of bounds" ;;
  static_assert ((1 <=? secondarySize) && (secondarySize <=? 4)) "secondarySize out of bounds" ;;
  mret (addr_kInstance basicType precision qualifier primarySize secondarySize).

(** ** Overloads

    The template parameters [primarySize] and [secondarySize] default to 1;
    the embedding passes them always. *)

Definition GetBasic (basicType : TBasicType) (primarySize secondarySize : uchar)
    : result TTypePtr :=
  Get basicType EbpUndefined EvqGlobal primarySize secondarySize.

Definition GetQualified (basicType : TBasicType) (qualifier : TQualifier)
    (primarySize secondarySize : uchar) : result TTypePtr :=
  Get basicType EbpUndefined qualifier primarySize secondarySize.

(** ** Dynamic lookup methods *)

(** Modelled from the spec: the macro [UNREACHABLE] is defined in debug.h, which
    is not part of the sources at hand. Section 7 of the specification has it
    abort with a diagnostic or, as a last resort, go on to the statement after
    it. [Unreachable fallback] is a run that executed the macro; [fallback] is
    what the [return] after it hands back when the macro does not abort. *)
Inductive outcome : Set :=
  | Returned (t : TTypePtr)
  | Unreachable (fallback : TTypePtr).

(** The condition of the [static_assert] on [basicType]. *)
Definition supported_basicType (basicType : TBasicType) : bool :=
  bool_decide (basicType = EbtFloat) || bool_decide (basicType = EbtInt) ||
  bool_decide (basicType = EbtUInt) || bool_decide (basicType = EbtBool).

(** [Helpers::GetForVecMatHelper<basicType, precision, qualifier, secondarySize>(primarySize)].
    Instantiating the function template instantiates the callee of every
    [case] and of the [default]; the [switch] then picks one at run time. *)
Definition GetForVecMatHelper (basicType : TBasicType) (precision : TPrecision)
    (qualifier : TQualifier) (secondarySize : uchar) (primarySize : uchar)
    : result outcome :=
  static_assert (supported_basicType basicType) "unsupported basicType" ;;
  case1 ← Get basicType precision qualifier 1 secondarySize;
  case2 ← Get basicType precision qualifier 2 secondarySize;
  case3 ← Get basicType precision qualifier 3 secondarySize;
  case4 ← Get basicType precision qualifier 4 secondarySize;
  default ← GetBasic EbtVoid 1 1;
  mret (match primarySize with
        | 1 => Returned case1
        | 2 => Returned case2
        | 3 => Returned case3
        | 4 => Returned case4
        | _ => Unreachable default
        end).

(** [GetForVecMat<basicType, precision, qualifier>(primarySize, secondarySize)] *)
Definition GetForVecMat (basicType : TBasicType) (precision : TPrecision)
    (qualifier : TQualifier) (primarySize secondarySize : uchar) : result outcome :=
  static_assert (supported_basicType basicType) "unsupported basicType" ;;
  case1 ← GetForVecMatHelper basicType precision qualifier 1 primarySize;
  case2 ← GetForVecMatHelper basicType precision qualifier 2 primarySize;
  case3 ← GetForVecMatHelper basicType precision qualifier 3 primarySize;
  case4 ← GetForVecMatHelper basicType precision qualifier 4 primarySize;
  default ← GetBasic EbtVoid 1 1;
  mret (match secondarySize with
        | 1 => case1
        | 2 => case2
        | 3 => case3
        | 4 => case4
        | _ => Unreachable default
        end).

(** [GetForVec<basicType, precision>(qualifier, size)] *)
Definition GetForVec (basicType : TBasicType) (precision : TPrecision)
    (qualifier : TQualifier) (size : uchar) : result outcome :=
  caseGlobal ← GetForVecMatHelper basicType precision EvqGlobal 1 size;
  caseOut ← GetForVecMatHelper basicType precision EvqOut 1 size;
  default ← GetBasic EbtVoid 1 1;
  mret (match qualifier with
        | EvqGlobal => caseGlobal
        | EvqOut => caseOut
        | _ => Unreachable default
        end).

(** ** Lookups in a linked program

    [kMangledNameInstance] and [kInstance] are declared [static constexpr] in
    the header: every translation unit that includes it has slots of its
    own, and naming a slot instantiates its initialiser. [PerUnit.Get] is
    [Get] as one translation unit compiles it: the two checks on the sizes,
    the instantiation of [Helpers::kInstance<...>] that taking its address
    asks for, and the address of the slot of that unit. *)

Definition TranslationUnit := nat.

(** [const TType *] in a program of several translation units. *)
Record UnitPtr : Set := { ptr_unit : TranslationUnit; ptr_slot : TTypePtr }.

Module PerUnit.

Definition Get (GetBasicMangledName : TBasicType -> string) (unit : TranslationUnit)
    (basicType : TBasicType) (precision : TPrecision) (qualifier : TQualifier)
    (primarySize secondarySize : uchar) : result UnitPtr :=
  static_assert ((1 <=? primarySize) && (primarySize <=? 4)) "primarySize out of bounds" ;;
  static_assert ((1 <=? secondarySize) && (secondarySize <=? 4)) "secondarySize out of bounds" ;;
  Helpers.kInstance GetBasicMangledName basicType precision qualifier
    primarySize secondarySize ;;
  mret {| ptr_unit := unit;
          ptr_slot := addr_kInstance basicType precision qualifier
                        primarySize secondarySize |}.

(** Reading through the pointer: the slots of all units have the same
    initialiser. *)
Definition deref (GetBasicMangledName : TBasicType -> string) (t : UnitPtr)
    : result TType :=
  deref GetBasicMangledName (ptr_slot t).

End PerUnit.

(** ** Reading the names back *)

(** The value of the NUL-terminated string that starts an array of [char]. *)
Fixpoint c_str (chars : list ascii) : string :=
  match chars with
  | [] => EmptyString
  | c :: rest => if decide (c = NUL) then EmptyString else String c (c_str rest)
  end.

(** The short code of a basic type: the C string [GetBasicMangledName] returns. *)
Definition ShortCode (GetBasicMangledName : TBasicType -> string)
    (basicType : TBasicType) : string :=
  c_str (list_ascii_of_string (GetBasicMangledName basicType)).

(** ** The Name Encoder of the specification (section 4.1), step by step *)

Module Spec.

(** "the ASCII digit for" a size *)
Definition digit (size : uchar) : string := String (ascii_of_N (48 + size)) EmptyString.

Definition Encode (ShortCode : TBasicType -> string) (basicKind : TBasicType)
    (precision : TPrecision) (qualifier : TQualifier)
    (primarySize secondarySize : uchar) : string :=
  let matrix := (1 <? primarySize) && (1 <? secondarySize) in
  let vector := (1 <? primarySize) && (secondarySize =? 1) in
  (if matrix then "m" else if vector then "v" else "")
  +:+ ShortCode basicKind
  +:+ digit primarySize
  +:+ (if matrix then "x" +:+ digit secondarySize else "")
  +:+ ";".

End Spec.

(** ** Locals of the mangler after it has written some characters *)

Definition written (w : list ascii) : Helpers.locals :=
  {| Helpers.l_name :=
       {| Helpers.name :=
            w ++ replicate (S Helpers.kStaticMangledNameMaxLength - length w) NUL |};
     Helpers.l_at := length w |}.

(** [emits m s]: from locals that hold [w], the statements [m] append the
    characters of [s] when they fit the array, and are rejected otherwise. *)
Definition emits (m : Helpers.constexpr unit) (s : string) : Prop :=
  forall (A : Type) (k : Helpers.constexpr A) (w : list ascii),
    (length w <= S Helpers.kStaticMangledNameMaxLength)%nat ->
    (m ;; k) (written w) =
    if decide (length (w ++ list_ascii_of_string s)
               <= S Helpers.kStaticMangledNameMaxLength)%nat
    then k (written (w ++ list_ascii_of_string s))
    else IllFormed ArrayIndexOutOfBounds.

(** The array that holds [s] followed by NULs. *)
Definition name_of (s : string) : Helpers.StaticMangledName :=
  {| Helpers.name :=
       list_ascii_of_string s
       ++ replicate (S Helpers.kStaticMangledNameMaxLength - String.length s) NUL |}.

(** The descriptor the dynamic lookups hand back after [UNREACHABLE()]:
    [&Helpers::kInstance<EbtVoid, EbpUndefined, EvqGlobal, 1, 1>]. *)
Definition fallback : TTypePtr := addr_kInstance EbtVoid EbpUndefined EvqGlobal 1 1.

(** The pointer a dynamic lookup hands back, after a normal return or after
    [UNREACHABLE()]. *)
Definition outcome_ptr (o : outcome) : TTypePtr :=
  match o with
  | Returned t => t
  | Unreachable t => t
  end.

(** The characters [BuildStaticMangledName] writes around the short code:
    "m", the two sizes, "x" and ";" for a matrix; "v", a size and ";" for a
    vector; a size and ";" otherwise. *)
Definition name_overhead (primarySize secondarySize : uchar) : nat :=
  if (1 <? primarySize) && (1 <? secondarySize) then 5%nat
  else if (1 <? primarySize) && (secondarySize =? 1) then 3%nat
  else 2%nat.

(** A string is free of NUL when reading it back as a C string gives it whole. *)
Definition nul_free (s : string) : Prop := c_str (list_ascii_of_string s) = s.

(** A short-code table to run the definitions on: the codes of the four
    basic types the dynamic lookups accept, and no code for the others. *)
Definition sample_codes (basicType : TBasicType) : string :=
  match basicType with
  | EbtFloat => "f"
  | EbtInt => "i"
  | EbtUInt => "u"
  | EbtBool => "b"
  | _ => ""
  end.

(** * Properties *)

(** ** Strings and arrays *)

Lemma length_list_ascii_of_string (s : string) :
  length (list_ascii_of_string s) = String.length s.
Proof. induction s as [|c s IH]; simpl; [reflexivity | now rewrite IH]. Qed.

Lemma list_ascii_of_string_app (s1 s2 : string) :
  list_ascii_of_string (s1 +:+ s2) = list_ascii_of_string s1 ++ list_ascii_of_string s2.
Proof. induction s1 as [|c s1 IH]; simpl; [reflexivity | now rewrite IH]. Qed.

Lemma string_length_app (s1 s2 : string) :
  String.length (s1 +:+ s2) = (String.length s1 + String.length s2)%nat.
Proof. induction s1 as [|c s1 IH]; simpl; [reflexivity | now rewrite IH]. Qed.

Lemma nul_free_c_str (chars : list ascii) : nul_free (c_str chars).
Proof.
  unfold nul_free. induction chars as [|c rest IH]; [reflexivity|].
  cbn [c_str]. case_decide as Hc; [reflexivity|].
  cbn [list_ascii_of_string c_str]. rewrite decide_False by exact Hc. now rewrite IH.
Qed.

Lemma nul_free_app (s1 s2 : string) : nul_free s1 -> nul_free s2 -> nul_free (s1 +:+ s2).
Proof.
  unfold nul_free. intros H1 H2. induction s1 as [|c s1 IH]; [exact H2|].
  change (String c s1 +:+ s2) with (String c (s1 +:+ s2)).
  cbn [list_ascii_of_string c_str] in *.
  case_decide as Hc; [discriminate H1|].
  injection H1 as H1. now rewrite IH.
Qed.

Lemma c_str_terminated (s : string) (rest : list ascii) :
  nul_free s -> c_str (list_ascii_of_string s ++ NUL :: rest) = s.
Proof.
  unfold nul_free. induction s as [|c s IH]; cbn [list_ascii_of_string c_str app].
  - intros _. now rewrite decide_True.
  - case_decide as Hc; [discriminate|]. intros H. injection H as H. now rewrite IH.
Qed.

Lemma c_str_name_of (s : string) :
  nul_free s -> (String.length s <= Helpers.kStaticMangledNameMaxLength)%nat ->
  c_str (Helpers.name (name_of s)) = s.
Proof.
  intros Hs Hlen. unfold name_of; simpl.
  replace (S Helpers.kStaticMangledNameMaxLength - String.length s)%nat
    with (S (Helpers.kStaticMangledNameMaxLength - String.length s)) by lia.
  simpl. now apply c_str_terminated.
Qed.

Lemma length_name_of (s : string) :
  (String.length s <= Helpers.kStaticMangledNameMaxLength)%nat ->
  length (Helpers.name (name_of s)) = S Helpers.kStaticMangledNameMaxLength.
Proof.
  intros Hlen. unfold name_of; simpl.
  rewrite length_app, length_replicate, length_list_ascii_of_string. lia.
Qed.

(** ** The statements of the mangler *)

Lemma emits_skip : emits (mret tt) "".
Proof.
  intros A k w Hw. cbn [list_ascii_of_string]. rewrite app_nil_r.
  rewrite decide_True by exact Hw. reflexivity.
Qed.

Lemma emits_store_inc (c : ascii) : emits (Helpers.store_inc c) (String c "").
Proof.
  intros A k w Hw. cbn [list_ascii_of_string].
  unfold mbind, Helpers.constexpr_bind, Helpers.store_inc, written.
  cbn [Helpers.l_at Helpers.l_name Helpers.name].
  rewrite !length_app, length_replicate. cbn [length].
  destruct (decide (length w + 1 <= S Helpers.kStaticMangledNameMaxLength)%nat) as [Hfit|Hfull].
  - rewrite decide_True by lia.
    replace (S Helpers.kStaticMangledNameMaxLength - length w)%nat
      with (S (S Helpers.kStaticMangledNameMaxLength - (length w + 1))) by lia.
    cbn [replicate].
    replace (length w) with (length w + 0)%nat at 1 by lia.
    rewrite insert_app_r. cbn [insert list_insert].
    rewrite <- app_assoc. cbn [app].
    replace (S (length w)) with (length w + 1)%nat by lia. reflexivity.
  - rewrite decide_False by lia. reflexivity.
Qed.

Lemma emits_seq (m1 m2 : Helpers.constexpr unit) (s1 s2 : string) :
  emits m1 s1 -> emits m2 s2 -> emits (m1 ;; m2) (s1 +:+ s2).
Proof.
  intros H1 H2 A k w Hw.
  assert (Hassoc : forall st, ((m1 ;; m2) ;; k) st = (m1 ;; (m2 ;; k)) st).
  { intros st. unfold mbind, Helpers.constexpr_bind.
    destruct (m1 st) as [[[] st']|d]; reflexivity. }
  rewrite Hassoc, (H1 _ _ w Hw), list_ascii_of_string_app, app_assoc.
  destruct (decide (length (w ++ list_ascii_of_string s1)
                    <= S Helpers.kStaticMangledNameMaxLength)%nat) as [Hfit|Hfull].
  - now rewrite (H2 _ _ _ Hfit).
  - rewrite decide_False; [reflexivity|]. rewrite length_app. lia.
Qed.

Lemma emits_if (b : bool) (m1 m2 : Helpers.constexpr unit) (s1 s2 : string) :
  emits m1 s1 -> emits m2 s2 -> emits (if b then m1 else m2) (if b then s1 else s2).
Proof. now destruct b. Qed.

Lemma emits_copy_basicMangledName (basicMangledName : string) :
  emits (Helpers.copy_basicMangledName basicMangledName)
        (c_str (list_ascii_of_string basicMangledName)).
Proof.
  induction basicMangledName as [|c rest IH];
    cbn [Helpers.copy_basicMangledName list_ascii_of_string c_str].
  - apply emits_skip.
  - case_decide.
    + apply emits_skip.
    + apply (emits_seq _ _ (String c "") _ (emits_store_inc c) IH).
Qed.

Lemma sequence_of_five {A : Type} (m1 m2 m3 m4 m5 : Helpers.constexpr unit)
    (k : Helpers.constexpr A) (st : Helpers.locals) :
  (m1 ;; m2 ;; m3 ;; m4 ;; m5 ;; k) st = ((m1 ;; m2 ;; m3 ;; m4 ;; m5) ;; k) st.
Proof.
  unfold mbind, Helpers.constexpr_bind.
  destruct (m1 st) as [[[] st1]|d]; [|reflexivity].
  destruct (m2 st1) as [[[] st2]|d]; [|reflexivity].
  destruct (m3 st2) as [[[] st3]|d]; [|reflexivity].
  destruct (m4 st3) as [[[] st4]|d]; [|reflexivity].
  destruct (m5 st4) as [[[] st5]|d]; reflexivity.
Qed.

Lemma terminate_and_return (m : Helpers.constexpr unit) (s : string) :
  emits m s ->
  Helpers.constant_evaluate (m ;; Helpers.store NUL ;; Helpers.return_name) (written []) =
  if decide (String.length s <= Helpers.kStaticMangledNameMaxLength)%nat
  then Ok (name_of s)
  else IllFormed ArrayIndexOutOfBounds.
Proof.
  intros Hm. unfold Helpers.constant_evaluate.
  rewrite (Hm _ _ []) by (cbn; lia). cbn [app].
  rewrite length_list_ascii_of_string.
  destruct (decide (String.length s <= Helpers.kStaticMangledNameMaxLength)%nat) as [Hfit|Hlong].
  - rewrite decide_True by lia.
    unfold mbind, Helpers.constexpr_bind, Helpers.store, Helpers.return_name, written, name_of.
    cbn [Helpers.l_at Helpers.l_name Helpers.name].
    rewrite length_app, length_replicate, !length_list_ascii_of_string.
    rewrite decide_True by lia.
    replace (S Helpers.kStaticMangledNameMaxLength - String.length s)%nat
      with (S (Helpers.kStaticMangledNameMaxLength - String.length s)) by lia.
    cbn [replicate].
    rewrite <- (length_list_ascii_of_string s) at 1.
    replace (length (list_ascii_of_string s))
      with (length (list_ascii_of_string s) + 0)%nat at 1 by lia.
    rewrite insert_app_r. reflexivity.
  - destruct (decide (String.length s <= S Helpers.kStaticMangledNameMaxLength)%nat)
      as [Hfull|Hover]; [|reflexivity].
    unfold mbind, Helpers.constexpr_bind, Helpers.store, written.
    cbn [Helpers.l_at Helpers.l_name Helpers.name].
    rewrite length_app, length_replicate, !length_list_ascii_of_string.
    rewrite decide_False by lia. reflexivity.
Qed.

Lemma char_of_int_small (n : N) : n < 256 -> char_of_int n = ascii_of_N n.
Proof. intros Hn. unfold char_of_int. now rewrite N.mod_small. Qed.

(** The mangler computes the encoding of the specification into its array,
    and is rejected exactly when the encoding is longer than the array allows. *)
Lemma BuildStaticMangledName_refines (GetBasicMangledName : TBasicType -> string)
    (b : TBasicType) (p : TPrecision) (q : TQualifier) (ps ss : uchar) :
  1 <= ps <= 4 -> 1 <= ss <= 4 ->
  Helpers.BuildStaticMangledName GetBasicMangledName b p q ps ss =
  if decide (String.length (Spec.Encode (ShortCode GetBasicMangledName) b p q ps ss)
             <= Helpers.kStaticMangledNameMaxLength)%nat
  then Ok (name_of (Spec.Encode (ShortCode GetBasicMangledName) b p q ps ss))
  else IllFormed ArrayIndexOutOfBounds.
Proof.
  intros Hps Hss. unfold Helpers.BuildStaticMangledName, Spec.Encode, Spec.digit.
  change {| Helpers.l_name := Helpers.StaticMangledName_zero; Helpers.l_at := 0 |}
    with (written []).
  rewrite !char_of_int_small by lia.
  unfold Helpers.constant_evaluate. rewrite sequence_of_five.
  apply terminate_and_return.
  repeat first
    [ apply emits_seq | apply emits_if | apply emits_store_inc | apply emits_skip
    | apply emits_copy_basicMangledName ].
Qed.

Lemma Encode_nul_free (ShortCode : TBasicType -> string) (b : TBasicType)
    (p : TPrecision) (q : TQualifier) (ps ss : uchar) :
  (forall b', nul_free (ShortCode b')) -> 1 <= ps <= 4 -> 1 <= ss <= 4 ->
  nul_free (Spec.Encode ShortCode b p q ps ss).
Proof.
  intros Hcode Hps Hss. unfold Spec.Encode, Spec.digit.
  assert (Hdigit : forall n, 1 <= n <= 4 -> nul_free (String (ascii_of_N (48 + n)) "")).
  { intros n Hn.
    assert (n = 1 \/ n = 2 \/ n = 3 \/ n = 4) as [->|[->|[->| ->]]] by lia; reflexivity. }
  repeat apply nul_free_app; auto.
  - destruct (_ && _); [reflexivity|]. destruct (_ && _); reflexivity.
  - destruct (_ && _); [|reflexivity]. apply nul_free_app; [reflexivity | auto].
  - reflexivity.
Qed.

Lemma Encode_length (ShortCode : TBasicType -> string) (b : TBasicType)
    (p : TPrecision) (q : TQualifier) (ps ss : uchar) :
  String.length (Spec.Encode ShortCode b p q ps ss) =
  ((if ((1 <? ps) && (1 <? ss))%N then 5 else if ((1 <? ps) && (ss =? 1))%N then 3 else 2)
   + String.length (ShortCode b))%nat.
Proof.
  unfold Spec.Encode, Spec.digit. rewrite !string_length_app.
  destruct ((1 <? ps) && (1 <? ss)); [rewrite string_length_app; cbn; lia|].
  destruct ((1 <? ps) && (ss =? 1)); cbn; lia.
Qed.

(** What a successful or rejected run of the mangler means, for a valid key. *)
Lemma BuildStaticMangledName_cases (GetBasicMangledName : TBasicType -> string)
    (b : TBasicType) (p : TPrecision) (q : TQualifier) (ps ss : uchar) :
  1 <= ps <= 4 -> 1 <= ss <= 4 ->
  match Helpers.BuildStaticMangledName GetBasicMangledName b p q ps ss with
  | Ok n =>
      length (Helpers.name n) = S Helpers.kStaticMangledNameMaxLength /\
      c_str (Helpers.name n) = Spec.Encode (ShortCode GetBasicMangledName) b p q ps ss /\
      (String.length (Spec.Encode (ShortCode GetBasicMangledName) b p q ps ss)
       <= Helpers.kStaticMangledNameMaxLength)%nat
  | IllFormed d =>
      d = ArrayIndexOutOfBounds /\
      (Helpers.kStaticMangledNameMaxLength
       < String.length (Spec.Encode (ShortCode GetBasicMangledName) b p q ps ss))%nat
  end.
Proof.
  intros Hps Hss. rewrite BuildStaticMangledName_refines by assumption.
  case_decide as Hlen.
  - split; [now apply length_name_of|]. split; [|exact Hlen].
    apply c_str_name_of; [|exact Hlen].
    apply Encode_nul_free; [|assumption..].
    intros b'. apply nul_free_c_str.
  - split; [reflexivity | lia].
Qed.

(** A valid key whose encoding fits the array gets its name. *)
Lemma BuildStaticMangledName_fits (GetBasicMangledName : TBasicType -> string)
    (b : TBasicType) (p : TPrecision) (q : TQualifier) (ps ss : uchar) :
  1 <= ps <= 4 -> 1 <= ss <= 4 ->
  (String.length (Spec.Encode (ShortCode GetBasicMangledName) b p q ps ss)
   <= Helpers.kStaticMangledNameMaxLength)%nat ->
  exists n, Helpers.BuildStaticMangledName GetBasicMangledName b p q ps ss = Ok n /\
            c_str (Helpers.name n)
            = Spec.Encode (ShortCode GetBasicMangledName) b p q ps ss.
Proof.
  intros Hps Hss Hfit.
  pose proof (BuildStaticMangledName_cases GetBasicMangledName b p q ps ss Hps Hss) as H.
  destruct (Helpers.BuildStaticMangledName GetBasicMangledName b p q ps ss) as [n|d].
  - exists n. split; [reflexivity | apply H].
  - destruct H as [_ H]. lia.
Qed.


(** Runs on concrete tables. *)

Example mangled_float_matrix :
  Helpers.BuildStaticMangledName sample_codes EbtFloat EbpUndefined EvqGlobal 2 3
  = Ok (name_of "mf2x3;").
Proof. reflexivity. Qed.

Example mangled_void_scalar :
  Helpers.BuildStaticMangledName sample_codes EbtVoid EbpUndefined EvqGlobal 1 1
  = Ok (name_of "1;").
Proof. reflexivity. Qed.

Example mangled_eight_character_code_scalar :
  Helpers.BuildStaticMangledName (fun _ => "sext2y2y") (EbtOther 0) EbpUndefined EvqGlobal 1 1
  = Ok (name_of "sext2y2y1;").
Proof. reflexivity. Qed.

Example mangled_eight_character_code_vector :
  Helpers.BuildStaticMangledName (fun _ => "sext2y2y") (EbtOther 0) EbpUndefined EvqGlobal 2 1
  = IllFormed ArrayIndexOutOfBounds.
Proof. reflexivity. Qed.

Example mangled_code_stops_at_NUL :
  Helpers.BuildStaticMangledName (fun _ => String "f" (String NUL "zz"))
    EbtFloat EbpUndefined EvqGlobal 3 1
  = Ok (name_of "vf3;").
Proof. reflexivity. Qed.

(** ** The static lookups *)

Lemma in_bounds (n : uchar) : 1 <= n <= 4 -> (1 <=? n) && (n <=? 4) = true.
Proof. intros [H1 H4]. apply andb_true_iff. split; now apply N.leb_le. Qed.

Lemma out_of_bounds (n : uchar) : ~ 1 <= n <= 4 -> (1 <=? n) && (n <=? 4) = false.
Proof.
  intros Hn. apply andb_false_iff.
  destruct (N.leb_spec 1 n); [|now left]. right. apply N.leb_gt. lia.
Qed.

Lemma Get_in_bounds (b : TBasicType) (p : TPrecision) (q : TQualifier) (ps ss : uchar) :
  1 <= ps <= 4 -> 1 <= ss <= 4 -> Get b p q ps ss = Ok (addr_kInstance b p q ps ss).
Proof. intros Hps Hss. unfold Get. now rewrite !in_bounds. Qed.

Lemma Get_Ok_inv (b : TBasicType) (p : TPrecision) (q : TQualifier) (ps ss : uchar)
    (t : TTypePtr) :
  Get b p q ps ss = Ok t -> 1 <= ps <= 4 /\ 1 <= ss <= 4 /\ t = addr_kInstance b p q ps ss.
Proof.
  unfold Get. intros H.
  destruct (decide (1 <= ps <= 4)) as [Hps|Hps];
    [rewrite (in_bounds _ Hps) in H | rewrite (out_of_bounds _ Hps) in H; discriminate H].
  destruct (decide (1 <= ss <= 4)) as [Hss|Hss];
    [rewrite (in_bounds _ Hss) in H | rewrite (out_of_bounds _ Hss) in H; discriminate H].
  cbn in H. injection H as <-. auto.
Qed.

(** ** The dynamic lookups *)

Lemma GetForVecMatHelper_eq (b : TBasicType) (p : TPrecision) (q : TQualifier)
    (ss ps : uchar) :
  supported_basicType b = true -> 1 <= ss <= 4 ->
  GetForVecMatHelper b p q ss ps =
  Ok (match ps with
      | 1 | 2 | 3 | 4 => Returned (addr_kInstance b p q ps ss)
      | _ => Unreachable fallback
      end).
Proof.
  intros Hb Hss. unfold GetForVecMatHelper. rewrite Hb.
  rewrite !Get_in_bounds by lia. cbn.
  destruct ps as [|[[[]|[]|]|[[]|[]|]|]]; reflexivity.
Qed.

Lemma GetForVecMat_eq (b : TBasicType) (p : TPrecision) (q : TQualifier) (ps ss : uchar) :
  supported_basicType b = true ->
  GetForVecMat b p q ps ss =
  Ok (match ss with
      | 1 | 2 | 3 | 4 =>
          match ps with
          | 1 | 2 | 3 | 4 => Returned (addr_kInstance b p q ps ss)
          | _ => Unreachable fallback
          end
      | _ => Unreachable fallback
      end).
Proof.
  intros Hb. unfold GetForVecMat. rewrite Hb.
  rewrite !GetForVecMatHelper_eq by (assumption || lia). cbn.
  destruct ss as [|[[[]|[]|]|[[]|[]|]|]]; reflexivity.
Qed.

Lemma supported_basicType_true (b : TBasicType) :
  b = EbtFloat \/ b = EbtInt \/ b = EbtUInt \/ b = EbtBool -> supported_basicType b = true.
Proof. intros [->|[->|[->| ->]]]; reflexivity. Qed.

Lemma supported_basicType_false (b : TBasicType) :
  ~ (b = EbtFloat \/ b = EbtInt \/ b = EbtUInt \/ b = EbtBool) ->
  supported_basicType b = false.
Proof. intros Hb. destruct b; try reflexivity; exfalso; apply Hb; auto. Qed.

Lemma GetForVec_eq (b : TBasicType) (p : TPrecision) (q : TQualifier) (size : uchar) :
  supported_basicType b = true ->
  GetForVec b p q size =
  Ok (match q with
      | EvqGlobal | EvqOut =>
          match size with
          | 1 | 2 | 3 | 4 => Returned (addr_kInstance b p q size 1)
          | _ => Unreachable fallback
          end
      | _ => Unreachable fallback
      end).
Proof.
  intros Hb. unfold GetForVec.
  rewrite !GetForVecMatHelper_eq by (assumption || lia). cbn.
  destruct q; reflexivity.
Qed.

Lemma dimension_cases (n : uchar) :
  1 <= n <= 4 -> n = 1 \/ n = 2 \/ n = 3 \/ n = 4.
Proof. lia. Qed.

Lemma dimension_default {A : Type} (n : uchar) (a1 a2 a3 a4 d : A) :
  ~ 1 <= n <= 4 ->
  match n with 1 => a1 | 2 => a2 | 3 => a3 | 4 => a4 | _ => d end = d.
Proof.
  intros Hn. destruct n as [|[[[]|[]|]|[[]|[]|]|]]; try reflexivity; exfalso; apply Hn; lia.
Qed.

Example lookup_float_matrix :
  GetForVecMat EbtFloat EbpUndefined EvqGlobal 2 3
  = Ok (Returned (addr_kInstance EbtFloat EbpUndefined EvqGlobal 2 3)).
Proof. reflexivity. Qed.

Example lookup_primarySize_five :
  GetForVecMat EbtFloat EbpUndefined EvqGlobal 5 3 = Ok (Unreachable fallback).
Proof. reflexivity. Qed.

Example lookup_secondarySize_zero :
  GetForVecMat EbtBool EbpUndefined EvqGlobal 2 0 = Ok (Unreachable fallback).
Proof. reflexivity. Qed.

Example lookup_void_matrix :
  GetForVecMat EbtVoid EbpUndefined EvqGlobal 2 2
  = IllFormed (StaticAssertFailed "unsupported basicType").
Proof. reflexivity. Qed.

Example helper_secondarySize_five :
  GetForVecMatHelper EbtInt EbpUndefined EvqGlobal 5 2
  = IllFormed (StaticAssertFailed "secondarySize out of bounds").
Proof. reflexivity. Qed.

Example lookup_out_vector :
  GetForVec EbtUInt EbpUndefined EvqOut 4
  = Ok (Returned (addr_kInstance EbtUInt EbpUndefined EvqOut 4 1)).
Proof. reflexivity. Qed.

(** ** The claims *)

(** C2 — The mangler produces the encoding of the specification for every
    valid key whose encoding fits the array; in particular a scalar key (1, 1)
    gives the short code followed by "1;", the vector key (3, 1) gives "v",
    the short code and "3;", and the matrix key (2, 3) gives "m", the short
    code and "2x3;". *)
Theorem BuildStaticMangledName_format (GetBasicMangledName : TBasicType -> string)
    (b : TBasicType) (p : TPrecision) (q : TQualifier) :
  let code := ShortCode GetBasicMangledName b in
  (forall ps ss, 1 <= ps <= 4 -> 1 <= ss <= 4 ->
     (String.length (Spec.Encode (ShortCode GetBasicMangledName) b p q ps ss)
      <= Helpers.kStaticMangledNameMaxLength)%nat ->
     exists n, Helpers.BuildStaticMangledName GetBasicMangledName b p q ps ss = Ok n /\
               c_str (Helpers.name n)
               = Spec.Encode (ShortCode GetBasicMangledName) b p q ps ss) /\
  ((String.length code <= 8)%nat ->
     exists n, Helpers.BuildStaticMangledName GetBasicMangledName b p q 1 1 = Ok n /\
               c_str (Helpers.name n) = code +:+ "1;") /\
  ((String.length code <= 7)%nat ->
     exists n, Helpers.BuildStaticMangledName GetBasicMangledName b p q 3 1 = Ok n /\
               c_str (Helpers.name n) = "v" +:+ code +:+ "3;") /\
  ((String.length code <= 5)%nat ->
     exists n, Helpers.BuildStaticMangledName GetBasicMangledName b p q 2 3 = Ok n /\
               c_str (Helpers.name n) = "m" +:+ code +:+ "2x3;").
Proof.
  intros code.
  pose proof (fun ps ss => BuildStaticMangledName_fits GetBasicMangledName b p q ps ss)
    as Hgen.
  split; [exact Hgen|].
  split; [|split]; intros Hfit.
  - apply (Hgen 1 1); [lia | lia |]. rewrite Encode_length. cbn. fold code.
    unfold Helpers.kStaticMangledNameMaxLength. lia.
  - apply (Hgen 3 1); [lia | lia |]. rewrite Encode_length. cbn. fold code.
    unfold Helpers.kStaticMangledNameMaxLength. lia.
  - apply (Hgen 2 3); [lia | lia |]. rewrite Encode_length. cbn. fold code.
    unfold Helpers.kStaticMangledNameMaxLength. lia.
Qed.

Lemma BuildStaticMangledName_format_witness :
  (exists n, Helpers.BuildStaticMangledName sample_codes EbtFloat EbpUndefined EvqGlobal 1 1
             = Ok n /\ c_str (Helpers.name n) = "f1;") /\
  (exists n, Helpers.BuildStaticMangledName sample_codes EbtFloat EbpUndefined EvqGlobal 3 1
             = Ok n /\ c_str (Helpers.name n) = "vf3;") /\
  (exists n, Helpers.BuildStaticMangledName sample_codes EbtFloat EbpUndefined EvqGlobal 2 3
             = Ok n /\ c_str (Helpers.name n) = "mf2x3;").
Proof.
  destruct (BuildStaticMangledName_format sample_codes EbtFloat EbpUndefined EvqGlobal)
    as (_ & Hscalar & Hvector & Hmatrix).
  split; [apply Hscalar; vm_compute; lia|].
  split; [apply Hvector; vm_compute; lia | apply Hmatrix; vm_compute; lia].
Defined.

(** C3 — Two keys that agree on the basic type and on both sizes get the same
    mangled name, array for array, whatever their precisions and qualifiers;
    a rejected name is rejected for both. *)
Theorem BuildStaticMangledName_ignores_precision_and_qualifier
    (GetBasicMangledName : TBasicType -> string) (b : TBasicType)
    (p1 p2 : TPrecision) (q1 q2 : TQualifier) (ps ss : uchar) :
  Helpers.BuildStaticMangledName GetBasicMangledName b p1 q1 ps ss =
  Helpers.BuildStaticMangledName GetBasicMangledName b p2 q2 ps ss /\
  Helpers.kMangledNameInstance GetBasicMangledName b p1 q1 ps ss =
  Helpers.kMangledNameInstance GetBasicMangledName b p2 q2 ps ss.
Proof. split; reflexivity. Qed.






(** C6 — [Get] with a primary or secondary size outside 1..4 is rejected by
    the [static_assert] on that size, the one on the primary size first, and
    gives no pointer to any [kInstance] slot. *)
Theorem Get_out_of_bounds (b : TBasicType) (p : TPrecision) (q : TQualifier)
    (ps ss : uchar) :
  ~ 1 <= ps <= 4 \/ ~ 1 <= ss <= 4 ->
  Get b p q ps ss
  = IllFormed (StaticAssertFailed
                 (if decide (1 <= ps <= 4) then "secondarySize out of bounds"
                  else "primarySize out of bounds")) /\
  (forall t, Get b p q ps ss <> Ok t).
Proof.
  intros Hout.
  assert (Hget : Get b p q ps ss
                 = IllFormed (StaticAssertFailed
                     (if decide (1 <= ps <= 4) then "secondarySize out of bounds"
                      else "primarySize out of bounds"))).
  { unfold Get. case_decide as Hps.
    - rewrite (in_bounds _ Hps). destruct Hout as [Hout|Hout]; [contradiction|].
      now rewrite (out_of_bounds _ Hout).
    - now rewrite (out_of_bounds _ Hps). }
  split; [exact Hget|]. intros t. rewrite Hget. discriminate.
Qed.

Lemma Get_out_of_bounds_witness :
  (~ 1 <= 5 <= 4 \/ ~ 1 <= 1 <= 4) /\
  Get EbtFloat EbpUndefined EvqGlobal 5 1
  = IllFormed (StaticAssertFailed "primarySize out of bounds") /\
  Get EbtFloat EbpUndefined EvqGlobal 2 0
  = IllFormed (StaticAssertFailed "secondarySize out of bounds").
Proof.
  split; [left; lia|]. split.
  - apply (Get_out_of_bounds EbtFloat EbpUndefined EvqGlobal 5 1). left. lia.
  - apply (Get_out_of_bounds EbtFloat EbpUndefined EvqGlobal 2 0). right. lia.
Defined.



(** C8 — For every valid key, whatever the table of short codes: a mangled
    name that is produced sits in the array of 11 characters, at most 10
    characters and then a NUL; no name is produced only when a write falls
    outside the array, which is when the encoding has more than 10
    characters; and with a short code of at most 5 characters every valid key
    of the basic type, up to the 4x4 matrix, gets its name. *)
Theorem mangled_name_length_bound (GetBasicMangledName : TBasicType -> string)
    (b : TBasicType) (p : TPrecision) (q : TQualifier) (ps ss : uchar) :
  1 <= ps <= 4 -> 1 <= ss <= 4 ->
  let built := Helpers.BuildStaticMangledName GetBasicMangledName b p q ps ss in
  (forall n, built = Ok n ->
     length (Helpers.name n) = S Helpers.kStaticMangledNameMaxLength /\
     (String.length (c_str (Helpers.name n)) <= Helpers.kStaticMangledNameMaxLength)%nat /\
     Helpers.name n !! String.length (c_str (Helpers.name n)) = Some NUL) /\
  (forall d, built = IllFormed d ->
     d = ArrayIndexOutOfBounds /\
     (Helpers.kStaticMangledNameMaxLength
      < String.length (Spec.Encode (ShortCode GetBasicMangledName) b p q ps ss))%nat) /\
  ((String.length (ShortCode GetBasicMangledName b) <= 5)%nat -> exists n, built = Ok n).
Proof.
  intros Hps Hss built.
  pose proof (BuildStaticMangledName_cases GetBasicMangledName b p q ps ss Hps Hss) as H.
  pose proof (BuildStaticMangledName_refines GetBasicMangledName b p q ps ss Hps Hss) as Href.
  fold built in H, Href. split; [|split].
  - intros n Hn. rewrite Hn in H. destruct H as (Hlen & Hstr & Hfit).
    split; [exact Hlen|]. rewrite Hstr. split; [exact Hfit|].
    rewrite Hn in Href. case_decide; [|discriminate]. injection Href as ->.
    unfold name_of. cbn [Helpers.name].
    rewrite lookup_app_r by (rewrite length_list_ascii_of_string; lia).
    rewrite length_list_ascii_of_string, Nat.sub_diag.
    apply lookup_replicate_2. lia.
  - intros d Hd. now rewrite Hd in H.
  - intros Hcode. destruct built as [n|d]; [now exists n|].
    destruct H as [_ H]. rewrite Encode_length in H.
    unfold Helpers.kStaticMangledNameMaxLength in H.
    destruct (_ && _); [lia|]. destruct (_ && _); lia.
Qed.

Lemma mangled_name_length_bound_witness :
  1 <= 4 <= 4 /\ 1 <= 4 <= 4 /\
  exists n, Helpers.BuildStaticMangledName sample_codes EbtFloat EbpUndefined EvqGlobal 4 4
            = Ok n /\
            length (Helpers.name n) = 11%nat /\
            (String.length (c_str (Helpers.name n)) <= 10)%nat.
Proof.
  split; [lia|]. split; [lia|].
  destruct (mangled_name_length_bound sample_codes EbtFloat EbpUndefined EvqGlobal 4 4)
    as (Hok & _ & Hbuilt); [lia | lia |].
  destruct Hbuilt as [n Hn]; [vm_compute; lia|].
  exists n. split; [exact Hn|]. destruct (Hok n Hn) as (Hlen & Hstr & _). split; assumption.
Defined.

(** C9 — [GetBasic] is [Get] with precision [EbpUndefined] and qualifier
    [EvqGlobal], and [GetQualified] is [Get] with precision [EbpUndefined],
    for every basic type, qualifier and pair of sizes: the same pointer, or
    the same rejection. *)
Theorem GetBasic_GetQualified_are_Get (b : TBasicType) (q : TQualifier) (ps ss : uchar) :
  GetBasic b ps ss = Get b EbpUndefined EvqGlobal ps ss /\
  GetQualified b q ps ss = Get b EbpUndefined q ps ss.
Proof. split; reflexivity. Qed.



(** ** Further properties of the mangler *)

Lemma list_ascii_of_string_inj (s1 s2 : string) :
  list_ascii_of_string s1 = list_ascii_of_string s2 -> s1 = s2.
Proof.
  intros H. apply (f_equal string_of_list_ascii) in H.
  now rewrite !string_of_list_ascii_of_string in H.
Qed.

Lemma app_four_split {A : Type} (l : list A) (a b c d : A) :
  l ++ [a; b; c; d] = (l ++ [a; b]) ++ [c; d].
Proof. now rewrite <- app_assoc. Qed.

(** Closes a comparison of two encodings, given as lists of characters. *)
Ltac compare_tails H :=
  let H1 := fresh "Hcode" in
  let H2 := fresh "Htail" in
  first
    [ apply app_inj_2 in H; [|reflexivity]; destruct H as [H1 H2];
      first [ discriminate H2
            | apply list_ascii_of_string_inj in H1; repeat split; first [assumption | lia] ]
    | rewrite app_comm_cons in H; apply app_inj_2 in H; [|reflexivity];
      destruct H as [H1 H2]; discriminate H2
    | rewrite app_four_split, app_comm_cons in H; apply app_inj_2 in H; [|reflexivity];
      destruct H as [H1 H2]; discriminate H2 ].

Ltac compare_encodings H :=
  first
    [ discriminate H
    | injection H as H; compare_tails H
    | compare_tails H
    | symmetry in H; compare_tails H ].

Lemma Encode_inj (ShortCode : TBasicType -> string) (b b' : TBasicType)
    (p p' : TPrecision) (q q' : TQualifier) (ps ss ps' ss' : uchar) :
  1 <= ps <= 4 -> 1 <= ss <= 4 -> 1 <= ps' <= 4 -> 1 <= ss' <= 4 ->
  Spec.Encode ShortCode b p q ps ss = Spec.Encode ShortCode b' p' q' ps' ss' ->
  ShortCode b = ShortCode b' /\ ps = ps' /\ (ps = 1 \/ ss = ss').
Proof.
  intros Hps Hss Hps' Hss' H.
  apply (f_equal list_ascii_of_string) in H.
  unfold Spec.Encode, Spec.digit in H.
  destruct (dimension_cases ps Hps) as [->|[->|[->| ->]]];
    destruct (dimension_cases ss Hss) as [->|[->|[->| ->]]];
    destruct (dimension_cases ps' Hps') as [->|[->|[->| ->]]];
    destruct (dimension_cases ss' Hss') as [->|[->|[->| ->]]];
    rewrite !list_ascii_of_string_app in H; simpl in H;
    compare_encodings H.
Qed.

Lemma Encode_scalar_ignores_secondarySize (ShortCode : TBasicType -> string)
    (b : TBasicType) (p p' : TPrecision) (q q' : TQualifier) (ss ss' : uchar) :
  Spec.Encode ShortCode b p q 1 ss = Spec.Encode ShortCode b p' q' 1 ss'.
Proof. reflexivity. Qed.

Lemma Encode_same_code (ShortCode : TBasicType -> string) (b b' : TBasicType)
    (p p' : TPrecision) (q q' : TQualifier) (ps ss : uchar) :
  ShortCode b = ShortCode b' ->
  Spec.Encode ShortCode b p q ps ss = Spec.Encode ShortCode b' p' q' ps ss.
Proof. intros H. unfold Spec.Encode. now rewrite H. Qed.

Lemma BuildStaticMangledName_Ok_inv (GetBasicMangledName : TBasicType -> string)
    (b : TBasicType) (p : TPrecision) (q : TQualifier) (ps ss : uchar)
    (n : Helpers.StaticMangledName) :
  1 <= ps <= 4 -> 1 <= ss <= 4 ->
  Helpers.BuildStaticMangledName GetBasicMangledName b p q ps ss = Ok n ->
  n = name_of (Spec.Encode (ShortCode GetBasicMangledName) b p q ps ss) /\
  (String.length (Spec.Encode (ShortCode GetBasicMangledName) b p q ps ss)
   <= Helpers.kStaticMangledNameMaxLength)%nat /\
  nul_free (Spec.Encode (ShortCode GetBasicMangledName) b p q ps ss).
Proof.
  intros Hps Hss Hn. rewrite BuildStaticMangledName_refines in Hn by assumption.
  case_decide as Hfit; [|discriminate Hn]. injection Hn as <-.
  split; [reflexivity|]. split; [exact Hfit|].
  apply Encode_nul_free; [|assumption..]. intros b'. apply nul_free_c_str.
Qed.

(** X1 - Two valid keys whose names are produced get the same array exactly
    when their basic types have the same short code, their primary sizes are
    equal, and their secondary sizes are equal or the primary size is 1:
    apart from the 1xN keys, a name tells the short code and both sizes. *)
Theorem mangled_names_collide_iff (GetBasicMangledName : TBasicType -> string)
    (b b' : TBasicType) (p p' : TPrecision) (q q' : TQualifier)
    (ps ss ps' ss' : uchar) (n n' : Helpers.StaticMangledName) :
  1 <= ps <= 4 -> 1 <= ss <= 4 -> 1 <= ps' <= 4 -> 1 <= ss' <= 4 ->
  Helpers.BuildStaticMangledName GetBasicMangledName b p q ps ss = Ok n ->
  Helpers.BuildStaticMangledName GetBasicMangledName b' p' q' ps' ss' = Ok n' ->
  n = n' <->
  ShortCode GetBasicMangledName b = ShortCode GetBasicMangledName b' /\
  ps = ps' /\ (ps = 1 \/ ss = ss').
Proof.
  intros Hps Hss Hps' Hss' Hn Hn'.
  apply BuildStaticMangledName_Ok_inv in Hn as (-> & Hfit & Hfree); [|assumption..].
  apply BuildStaticMangledName_Ok_inv in Hn' as (-> & Hfit' & Hfree'); [|assumption..].
  split.
  - intros Heq. apply (Encode_inj _ b b' p p' q q'); [assumption..|].
    rewrite <- (c_str_name_of _ Hfree Hfit), <- (c_str_name_of _ Hfree' Hfit').
    now rewrite Heq.
  - intros (Hcode & <- & Hsize). f_equal.
    destruct Hsize as [-> | <-].
    + rewrite (Encode_scalar_ignores_secondarySize _ b p p' q q' ss ss').
      now apply Encode_same_code.
    + now apply Encode_same_code.
Qed.

Lemma mangled_names_collide_iff_witness :
  1 <= 2 <= 4 /\ 1 <= 3 <= 4 /\ 1 <= 3 <= 4 /\ 1 <= 2 <= 4 /\
  name_of "mf2x3;" <> name_of "mf3x2;".
Proof.
  split; [lia|]. split; [lia|]. split; [lia|]. split; [lia|].
  intros Heq.
  apply (mangled_names_collide_iff sample_codes EbtFloat EbtFloat EbpUndefined EbpUndefined
           EvqGlobal EvqGlobal 2 3 3 2 (name_of "mf2x3;") (name_of "mf3x2;"))
    in Heq as (_ & Hps & _); [discriminate Hps | lia | lia | lia | lia | reflexivity..].
Defined.

(** X2 - For a valid key the name has as many characters as the short code
    plus 5 for a matrix, 3 for a vector and 2 otherwise, and the mangler is
    rejected, for an index outside the array, exactly when that is more
    than 10. *)
Theorem mangled_name_length (GetBasicMangledName : TBasicType -> string)
    (b : TBasicType) (p : TPrecision) (q : TQualifier) (ps ss : uchar) :
  1 <= ps <= 4 -> 1 <= ss <= 4 ->
  let len := (name_overhead ps ss + String.length (ShortCode GetBasicMangledName b))%nat in
  ((len <= Helpers.kStaticMangledNameMaxLength)%nat ->
     exists n, Helpers.BuildStaticMangledName GetBasicMangledName b p q ps ss = Ok n /\
               String.length (c_str (Helpers.name n)) = len) /\
  ((Helpers.kStaticMangledNameMaxLength < len)%nat ->
     Helpers.BuildStaticMangledName GetBasicMangledName b p q ps ss
     = IllFormed ArrayIndexOutOfBounds).
Proof.
  intros Hps Hss len.
  pose proof (BuildStaticMangledName_cases GetBasicMangledName b p q ps ss Hps Hss) as H.
  rewrite Encode_length in H. fold (name_overhead ps ss) in H. fold len in H.
  destruct (Helpers.BuildStaticMangledName GetBasicMangledName b p q ps ss) as [n|d].
  - destruct H as (_ & Hstr & Hfit). split; [|lia].
    intros _. exists n. split; [reflexivity|].
    rewrite Hstr, Encode_length. reflexivity.
  - destruct H as [-> Hlong]. split; [lia | reflexivity].
Qed.

Lemma mangled_name_length_witness :
  (exists n, Helpers.BuildStaticMangledName (fun _ => "sext2y2y") (EbtOther 0)
               EbpUndefined EvqGlobal 1 1 = Ok n /\
             String.length (c_str (Helpers.name n)) = 10%nat) /\
  Helpers.BuildStaticMangledName (fun _ => "sext2y2y") (EbtOther 0)
    EbpUndefined EvqGlobal 2 1 = IllFormed ArrayIndexOutOfBounds.
Proof.
  split.
  - apply (mangled_name_length (fun _ => "sext2y2y") (EbtOther 0) EbpUndefined EvqGlobal 1 1);
      [lia | lia | vm_compute; lia].
  - apply (mangled_name_length (fun _ => "sext2y2y") (EbtOther 0) EbpUndefined EvqGlobal 2 1);
      [lia | lia | vm_compute; lia].
Defined.

(** X3 - In a name that is produced, every element of the array from the end
    of the string to the last one is NUL: the mangler leaves the
    zero-initialised rest of the array as it was. *)
Theorem mangled_name_tail_is_NUL (GetBasicMangledName : TBasicType -> string)
    (b : TBasicType) (p : TPrecision) (q : TQualifier) (ps ss : uchar)
    (n : Helpers.StaticMangledName) (i : nat) :
  1 <= ps <= 4 -> 1 <= ss <= 4 ->
  Helpers.BuildStaticMangledName GetBasicMangledName b p q ps ss = Ok n ->
  (String.length (c_str (Helpers.name n)) <= i <= Helpers.kStaticMangledNameMaxLength)%nat ->
  Helpers.name n !! i = Some NUL.
Proof.
  intros Hps Hss Hn Hi.
  apply BuildStaticMangledName_Ok_inv in Hn as (-> & Hfit & Hfree); [|assumption..].
  rewrite (c_str_name_of _ Hfree Hfit) in Hi.
  unfold name_of. cbn [Helpers.name].
  rewrite lookup_app_r by (rewrite length_list_ascii_of_string; lia).
  rewrite length_list_ascii_of_string. apply lookup_replicate_2. lia.
Qed.

Lemma mangled_name_tail_is_NUL_witness :
  1 <= 2 <= 4 /\ 1 <= 3 <= 4 /\
  Helpers.name (name_of "mf2x3;") !! 9%nat = Some NUL.
Proof.
  split; [lia|]. split; [lia|].
  apply (mangled_name_tail_is_NUL sample_codes EbtFloat EbpUndefined EvqGlobal 2 3);
    [lia | lia | reflexivity | vm_compute; lia].
Defined.

(** ** Further properties of the lookups *)

Lemma GetForVecMatHelper_unsupported (b : TBasicType) (p : TPrecision) (q : TQualifier)
    (ss ps : uchar) :
  supported_basicType b = false ->
  GetForVecMatHelper b p q ss ps = IllFormed (StaticAssertFailed "unsupported basicType").
Proof. intros Hb. unfold GetForVecMatHelper. now rewrite Hb. Qed.

Lemma GetForVecMatHelper_secondarySize (b : TBasicType) (p : TPrecision) (q : TQualifier)
    (ss ps : uchar) :
  supported_basicType b = true -> ~ 1 <= ss <= 4 ->
  GetForVecMatHelper b p q ss ps
  = IllFormed (StaticAssertFailed "secondarySize out of bounds").
Proof.
  intros Hb Hss. unfold GetForVecMatHelper, Get. rewrite Hb. cbn.
  now rewrite (out_of_bounds _ Hss).
Qed.

(** X5 - For a basic type other than float, int, uint and bool, each of the
    three dynamic lookups is rejected by the [static_assert] on the basic
    type, whatever the precision, the qualifier and the sizes. *)
Theorem dynamic_lookups_unsupported_basicType (b : TBasicType) (p : TPrecision)
    (q : TQualifier) (ps ss : uchar) :
  ~ (b = EbtFloat \/ b = EbtInt \/ b = EbtUInt \/ b = EbtBool) ->
  GetForVecMatHelper b p q ss ps = IllFormed (StaticAssertFailed "unsupported basicType") /\
  GetForVecMat b p q ps ss = IllFormed (StaticAssertFailed "unsupported basicType") /\
  GetForVec b p q ps = IllFormed (StaticAssertFailed "unsupported basicType").
Proof.
  intros Hb. apply supported_basicType_false in Hb.
  split; [now apply GetForVecMatHelper_unsupported|]. split.
  - unfold GetForVecMat. now rewrite Hb.
  - unfold GetForVec. rewrite !GetForVecMatHelper_unsupported by assumption. reflexivity.
Qed.

Lemma dynamic_lookups_unsupported_basicType_witness :
  ~ (EbtVoid = EbtFloat \/ EbtVoid = EbtInt \/ EbtVoid = EbtUInt \/ EbtVoid = EbtBool) /\
  GetForVecMat EbtVoid EbpUndefined EvqGlobal 1 1
  = IllFormed (StaticAssertFailed "unsupported basicType").
Proof.
  assert (H : ~ (EbtVoid = EbtFloat \/ EbtVoid = EbtInt \/ EbtVoid = EbtUInt
                 \/ EbtVoid = EbtBool)) by (intros [H|[H|[H|H]]]; discriminate H).
  split; [exact H|].
  apply (dynamic_lookups_unsupported_basicType EbtVoid EbpUndefined EvqGlobal 1 1 H).
Defined.

(** X6 - [Helpers::GetForVecMatHelper] with a secondary size outside 1..4 as
    template argument is rejected whatever the run-time primary size: its
    cases instantiate [Get] with that secondary size, and the
    [static_assert] of [Get] fails. *)
Theorem GetForVecMatHelper_secondarySize_out_of_bounds (b : TBasicType) (p : TPrecision)
    (q : TQualifier) (ss ps : uchar) :
  b = EbtFloat \/ b = EbtInt \/ b = EbtUInt \/ b = EbtBool ->
  ~ 1 <= ss <= 4 ->
  GetForVecMatHelper b p q ss ps
  = IllFormed (StaticAssertFailed "secondarySize out of bounds") /\
  Get b p q 1 ss = IllFormed (StaticAssertFailed "secondarySize out of bounds").
Proof.
  intros Hb Hss. apply supported_basicType_true in Hb.
  split; [now apply GetForVecMatHelper_secondarySize|].
  unfold Get. cbn. now rewrite (out_of_bounds _ Hss).
Qed.

Lemma GetForVecMatHelper_secondarySize_out_of_bounds_witness :
  ~ 1 <= 5 <= 4 /\
  GetForVecMatHelper EbtInt EbpUndefined EvqGlobal 5 2
  = IllFormed (StaticAssertFailed "secondarySize out of bounds").
Proof.
  split; [lia|].
  apply (GetForVecMatHelper_secondarySize_out_of_bounds EbtInt EbpUndefined EvqGlobal 5 2);
    [right; left; reflexivity | lia].
Defined.

Lemma Get_accepts_fallback : Get EbtVoid EbpUndefined EvqGlobal 1 1 = Ok fallback.
Proof. reflexivity. Qed.

Lemma dimension_switch_in_bounds (b : TBasicType) (p : TPrecision) (q : TQualifier)
    (ps ss : uchar) :
  1 <= ss <= 4 ->
  let o := match ps with
           | 1 | 2 | 3 | 4 => Returned (addr_kInstance b p q ps ss)
           | _ => Unreachable fallback
           end in
  exists b' p' q' ps' ss',
    outcome_ptr o = addr_kInstance b' p' q' ps' ss' /\
    1 <= ps' <= 4 /\ 1 <= ss' <= 4 /\ Get b' p' q' ps' ss' = Ok (outcome_ptr o).
Proof.
  intros Hss o. destruct (decide (1 <= ps <= 4)) as [Hps|Hps].
  - exists b, p, q, ps, ss.
    assert (Ho : o = Returned (addr_kInstance b p q ps ss))
      by (destruct (dimension_cases ps Hps) as [->|[->|[->| ->]]]; reflexivity).
    rewrite Ho. cbn. repeat split; try lia. now apply Get_in_bounds.
  - exists EbtVoid, EbpUndefined, EvqGlobal, 1, 1.
    assert (Ho : o = Unreachable fallback) by (subst o; now rewrite dimension_default).
    rewrite Ho. cbn. repeat split; lia.
Qed.

(** X7 - Whatever a dynamic lookup hands back, after a normal return or after
    [UNREACHABLE()], is a pointer that [Get] returns for some key: it
    designates a [kInstance] slot whose two sizes are in 1..4. *)
Theorem dynamic_lookups_stay_in_bounds (b : TBasicType) (p : TPrecision) (q : TQualifier)
    (ps ss : uchar) (o : outcome) :
  GetForVecMatHelper b p q ss ps = Ok o \/
  GetForVecMat b p q ps ss = Ok o \/
  GetForVec b p q ps = Ok o ->
  exists b' p' q' ps' ss',
    outcome_ptr o = addr_kInstance b' p' q' ps' ss' /\
    1 <= ps' <= 4 /\ 1 <= ss' <= 4 /\ Get b' p' q' ps' ss' = Ok (outcome_ptr o).
Proof.
  assert (Hfallback : exists b' p' q' ps' ss',
            outcome_ptr (Unreachable fallback) = addr_kInstance b' p' q' ps' ss' /\
            1 <= ps' <= 4 /\ 1 <= ss' <= 4 /\
            Get b' p' q' ps' ss' = Ok (outcome_ptr (Unreachable fallback))).
  { exists EbtVoid, EbpUndefined, EvqGlobal, 1, 1. cbn. repeat split; lia. }
  intros H. destruct (supported_basicType b) eqn:Hb.
  - destruct H as [H|[H|H]].
    + destruct (decide (1 <= ss <= 4)) as [Hss|Hss].
      * rewrite GetForVecMatHelper_eq in H by assumption. injection H as <-.
        now apply dimension_switch_in_bounds.
      * rewrite GetForVecMatHelper_secondarySize in H by assumption. discriminate H.
    + rewrite GetForVecMat_eq in H by assumption. injection H as <-.
      destruct (decide (1 <= ss <= 4)) as [Hss|Hss].
      * destruct (dimension_cases ss Hss) as [->|[->|[->| ->]]];
          now apply dimension_switch_in_bounds.
      * now rewrite dimension_default.
    + rewrite GetForVec_eq in H by assumption. injection H as <-.
      destruct q; [apply dimension_switch_in_bounds; lia.. | exact Hfallback].
  - destruct H as [H|[H|H]].
    + rewrite GetForVecMatHelper_unsupported in H by assumption. discriminate H.
    + unfold GetForVecMat in H. rewrite Hb in H. discriminate H.
    + unfold GetForVec in H.
      rewrite !GetForVecMatHelper_unsupported in H by assumption. discriminate H.
Qed.

Lemma dynamic_lookups_stay_in_bounds_witness :
  exists b' p' q' ps' ss',
    fallback = addr_kInstance b' p' q' ps' ss' /\
    1 <= ps' <= 4 /\ 1 <= ss' <= 4 /\ Get b' p' q' ps' ss' = Ok fallback.
Proof.
  apply (dynamic_lookups_stay_in_bounds EbtFloat EbpUndefined EvqGlobal 200 7
           (Unreachable fallback)).
  right; left. reflexivity.
Defined.



(** X10 - The matrix names are the longest: when the name of one valid
    matrix key of a basic type is produced, the name of every valid key of
    that basic type is produced too, and is not longer. *)
Theorem matrix_name_is_longest (GetBasicMangledName : TBasicType -> string)
    (b : TBasicType) (p p' : TPrecision) (q q' : TQualifier) (ps ss ps' ss' : uchar)
    (n : Helpers.StaticMangledName) :
  2 <= ps <= 4 -> 2 <= ss <= 4 -> 1 <= ps' <= 4 -> 1 <= ss' <= 4 ->
  Helpers.BuildStaticMangledName GetBasicMangledName b p q ps ss = Ok n ->
  exists n',
    Helpers.BuildStaticMangledName GetBasicMangledName b p' q' ps' ss' = Ok n' /\
    (String.length (c_str (Helpers.name n')) <= String.length (c_str (Helpers.name n)))%nat.
Proof.
  intros Hps Hss Hps' Hss' Hn.
  pose proof (BuildStaticMangledName_cases GetBasicMangledName b p q ps ss) as H.
  rewrite Hn in H. destruct H as (_ & Hstr & Hfit); [lia | lia |].
  rewrite Hstr. rewrite Encode_length in Hfit |- *.
  replace ((1 <? ps) && (1 <? ss)) with true in Hfit |- *
    by (symmetry; apply andb_true_iff; split; apply N.ltb_lt; lia).
  pose proof (BuildStaticMangledName_cases GetBasicMangledName b p' q' ps' ss' Hps' Hss') as H'.
  rewrite Encode_length in H'.
  destruct (Helpers.BuildStaticMangledName GetBasicMangledName b p' q' ps' ss') as [n'|d].
  - exists n'. split; [reflexivity|]. destruct H' as (_ & -> & _).
    rewrite Encode_length. destruct (_ && _); [lia|]. destruct (_ && _); lia.
  - exfalso. destruct H' as [_ H']. revert H'.
    destruct (_ && _); [lia|]. destruct (_ && _); lia.
Qed.

Lemma matrix_name_is_longest_witness :
  2 <= 4 <= 4 /\ 2 <= 4 <= 4 /\ 1 <= 3 <= 4 /\ 1 <= 1 <= 4 /\
  exists n',
    Helpers.BuildStaticMangledName sample_codes EbtFloat EbpUndefined EvqOut 3 1 = Ok n' /\
    (String.length (c_str (Helpers.name n')) <= 6)%nat.
Proof.
  split; [lia|]. split; [lia|]. split; [lia|]. split; [lia|].
  apply (matrix_name_is_longest sample_codes EbtFloat EbpUndefined EbpUndefined
           EvqGlobal EvqOut 4 4 3 1 (name_of "mf4x4;")); [lia | lia | lia | lia | reflexivity].
Defined.

(** ** Lookups in a linked program *)

Lemma PerUnit_Get_eq (GetBasicMangledName : TBasicType -> string) (unit : TranslationUnit)
    (b : TBasicType) (p : TPrecision) (q : TQualifier) (ps ss : uchar) :
  1 <= ps <= 4 -> 1 <= ss <= 4 ->
  PerUnit.Get GetBasicMangledName unit b p q ps ss =
  if decide (String.length (Spec.Encode (ShortCode GetBasicMangledName) b p q ps ss)
             <= Helpers.kStaticMangledNameMaxLength)%nat
  then Ok {| ptr_unit := unit; ptr_slot := addr_kInstance b p q ps ss |}
  else IllFormed ArrayIndexOutOfBounds.
Proof.
  intros Hps Hss. unfold PerUnit.Get, Helpers.kInstance, Helpers.kMangledNameInstance.
  rewrite !in_bounds by assumption.
  rewrite BuildStaticMangledName_refines by assumption.
  case_decide; reflexivity.
Qed.






(** X8 - For a valid key, [Get] in a translation unit and a read through the
    pointer it returns give the descriptor of that key, whose mangled name is
    the encoding of the key, when the encoding has at most 10 characters;
    when it has more, [Get] itself is rejected for an index outside the
    array and there is no pointer. *)
Theorem Get_then_deref (GetBasicMangledName : TBasicType -> string)
    (unit : TranslationUnit) (b : TBasicType) (p : TPrecision) (q : TQualifier)
    (ps ss : uchar) :
  1 <= ps <= 4 -> 1 <= ss <= 4 ->
  let encoding := Spec.Encode (ShortCode GetBasicMangledName) b p q ps ss in
  ((String.length encoding <= Helpers.kStaticMangledNameMaxLength)%nat ->
     exists t d,
       PerUnit.Get GetBasicMangledName unit b p q ps ss = Ok t /\
       PerUnit.deref GetBasicMangledName t = Ok d /\
       basicType d = b /\ precision d = p /\ qualifier d = q /\
       primarySize d = ps /\ secondarySize d = ss /\
       c_str (mangledName d) = encoding /\
       length (mangledName d) = S Helpers.kStaticMangledNameMaxLength) /\
  ((Helpers.kStaticMangledNameMaxLength < String.length encoding)%nat ->
     PerUnit.Get GetBasicMangledName unit b p q ps ss = IllFormed ArrayIndexOutOfBounds).
Proof.
  intros Hps Hss encoding. rewrite PerUnit_Get_eq by assumption. fold encoding. split.
  - intros Hfit. rewrite decide_True by exact Hfit.
    eexists _, _. split; [reflexivity|].
    unfold PerUnit.deref. cbn [ptr_slot deref].
    unfold Helpers.kInstance, Helpers.kMangledNameInstance.
    rewrite BuildStaticMangledName_refines, decide_True by assumption.
    split; [reflexivity|]. cbn. repeat split.
    + apply c_str_name_of; [|exact Hfit].
      apply Encode_nul_free; [|assumption..]. intros b'. apply nul_free_c_str.
    + now apply length_name_of.
  - intros Hlong. rewrite decide_False by lia. reflexivity.
Qed.

Lemma Get_then_deref_witness :
  (exists t d,
     PerUnit.Get sample_codes 0%nat EbtUInt EbpUndefined EvqOut 4 1 = Ok t /\
     PerUnit.deref sample_codes t = Ok d /\ c_str (mangledName d) = "vu4;") /\
  PerUnit.Get (fun _ => "sext2y2y") 0%nat (EbtOther 0) EbpUndefined EvqGlobal 2 1
  = IllFormed ArrayIndexOutOfBounds.
Proof.
  split.
  - destruct (Get_then_deref sample_codes 0%nat EbtUInt EbpUndefined EvqOut 4 1)
      as (Hfit & _); [lia | lia |].
    destruct Hfit as (t & d & Hget & Hd & _ & _ & _ & _ & _ & Hname & _); [vm_compute; lia|].
    exists t, d. repeat split; assumption.
  - apply (Get_then_deref (fun _ => "sext2y2y") 0%nat (EbtOther 0) EbpUndefined EvqGlobal 2 1);
      [lia | lia | vm_compute; lia].
Defined.
